(** * snowflake-demo: the scoped query-session helper [snowflake_cursor]

    A shallow embedding of [demo.py].  The only control logic of the script
    is the generator-based context manager [snowflake_cursor]; the rest of
    the file is a straight sequence of calls into the third-party driver.

    The driver is an interface here (class [Driver]): every call the helper
    makes may return or raise, and may change the state of the outside world
    (the driver and the remote service).  The helper runs in a small monad
    that threads that state, propagates exceptions and records the calls
    made, in order. *)

From stdpp Require Import base strings gmap list pretty.

(** ** Exceptions *)

(** [sc.errors.ProgrammingError] carries the four attributes the handler
    formats; every other exception is told apart by a name only. *)
Inductive exn : Type :=
| ProgrammingError (errno : Z) (sqlstate msg sfqid : string)
| OtherError (name : string).

Definition is_ProgrammingError (e : exn) : bool :=
  match e with
  | ProgrammingError _ _ _ _ => true
  | OtherError _ => false
  end.

Inductive outcome (A : Type) : Type :=
| Returned (a : A)
| Raised (e : exn).
Arguments Returned {A} a.
Arguments Raised {A} e.

(** ** Values handed to the driver *)

(** The values of the [session_parameters] dict: a string or an integer. *)
Inductive param : Type :=
| PStr (s : string)
| PInt (n : Z).

Definition connection := nat.
Definition cursor := nat.

(** ** The calls the helper makes, as they appear in a run *)

Inductive event : Type :=
| Connect (connection_name : string) (session_parameters : gmap string param)
| Cursor (conn : connection)
| Yield (conn : connection) (cur : cursor)
| Stdout (line : string)
| Rollback (conn : connection)
| CursorClose (cur : cursor)
| ConnClose (conn : connection).

(** ** The driver interface *)

Class Driver (world : Type) : Type := {
  sc_connect : string -> gmap string param -> world -> outcome connection * world;
  conn_cursor : connection -> world -> outcome cursor * world;
  conn_rollback : connection -> world -> outcome unit * world;
  cur_close : cursor -> world -> outcome unit * world;
  conn_close : connection -> world -> outcome unit * world;
  (** [print(line)]: the console is part of the outside world, and writing
      to it is a call like the others: it may raise (a line the console
      cannot encode, a closed or broken stream) *)
  console_print : string -> world -> outcome unit * world;
  (** [str(e)], the text [print(e)] writes *)
  exn_str : exn -> string
}.

(** ** The monad: outside state, exceptions, and the log of calls *)

Record run (world A : Type) : Type := Run {
  res : outcome A;
  final : world;
  trace : list event
}.
Arguments Run {world A} res final trace.
Arguments res {world A} r.
Arguments final {world A} r.
Arguments trace {world A} r.

Definition M (world A : Type) : Type := world -> run world A.

Section Monad.
Context {world : Type}.

Definition ret {A} (a : A) : M world A := fun w => Run (Returned a) w [].

Definition raise {A} (e : exn) : M world A := fun w => Run (Raised e) w [].

Definition bind {A B} (m : M world A) (f : A -> M world B) : M world B :=
  fun w =>
    let r := m w in
    match res r with
    | Returned a =>
        let r' := f a (final r) in
        Run (res r') (final r') (trace r ++ trace r')
    | Raised e => Run (Raised e) (final r) (trace r)
    end.

(** A call into the driver (or into the scoped block): one log entry. *)
Definition call {A} (ev : event) (op : world -> outcome A * world) : M world A :=
  fun w => let '(o, w') := op w in Run o w' [ev].

(** [try: m  except <clause> as e: handler e].  [handler e = None] when the
    clause does not match [e], which then propagates. *)
Definition try_except {A} (m : M world A) (handler : exn -> option (M world A))
  : M world A :=
  fun w =>
    let r := m w in
    match res r with
    | Returned a => r
    | Raised e =>
        match handler e with
        | Some h =>
            let r' := h (final r) in
            Run (res r') (final r') (trace r ++ trace r')
        | None => r
        end
    end.

(** [try: m  finally: fin].  [fin] always runs; when it raises, its
    exception replaces the outcome of [m]. *)
Definition try_finally {A} (m : M world A) (fin : M world unit) : M world A :=
  fun w =>
    let r := m w in
    let r' := fin (final r) in
    match res r' with
    | Returned _ => Run (res r) (final r') (trace r ++ trace r')
    | Raised e' => Run (Raised e') (final r') (trace r ++ trace r')
    end.
End Monad.

Declare Scope session_scope.
Delimit Scope session_scope with session.
Notation "'let*' x := m 'in' k" := (bind m (fun x => k))
  (at level 10, x name, m at level 100, k at level 200) : session_scope.
Notation "m >> k" := (bind m (fun _ => k))
  (at level 100, k at level 200, right associativity) : session_scope.
Open Scope session_scope.

(** ** [json.dumps] on a flat dict of strings

    Keys and values without characters that need escaping, which is all the
    script passes. *)
Definition dquote : string := String (Ascii.ascii_of_nat 34) EmptyString.

Definition json_string (s : string) : string := dquote +:+ s +:+ dquote.

Fixpoint json_members (kvs : list (string * string)) : string :=
  match kvs with
  | [] => ""
  | [(k, v)] => json_string k +:+ ": " +:+ json_string v
  | (k, v) :: rest => json_string k +:+ ": " +:+ json_string v +:+ ", " +:+ json_members rest
  end.

Definition json_dumps (kvs : list (string * string)) : string :=
  "{" +:+ json_members kvs +:+ "}".

(** ** The helper *)

(** The dict literal of lines 23-26. *)
Definition session_parameters : gmap string param :=
  <["STATEMENT_TIMEOUT_IN_SECONDS" := PInt (60 * 5)%Z]>
    (<["QUERY_TAG" := PStr (json_dumps [("user", "xiang")])]> ∅).

Definition connection_name : string := "dev".

(** ["Error {0} ({1}): {2} ({3})".format(e.errno, e.sqlstate, e.msg, e.sfqid)] *)
Definition custom_message (errno : Z) (sqlstate msg sfqid : string) : string :=
  "Error " +:+ pretty errno +:+ " (" +:+ sqlstate +:+ "): " +:+ msg
    +:+ " (" +:+ sfqid +:+ ")".

Section Helper.
Context {world : Type} `{!Driver world}.

(** The driver calls of the helper, each logged with its arguments. *)
Definition connect (name : string) (params : gmap string param) : M world connection :=
  call (Connect name params) (sc_connect name params).

Definition open_cursor (conn : connection) : M world cursor :=
  call (Cursor conn) (conn_cursor conn).

Definition rollback (conn : connection) : M world unit :=
  call (Rollback conn) (conn_rollback conn).

Definition close_cursor (cur : cursor) : M world unit :=
  call (CursorClose cur) (cur_close cur).

Definition close_connection (conn : connection) : M world unit :=
  call (ConnClose conn) (conn_close conn).

(** [print(line)] in the helper: logged when called, whether it returns or
    raises. *)
Definition print (line : string) : M world unit :=
  call (Stdout line) (console_print line).

(** The scoped block: the code under [with snowflake_cursor() as (conn, cur):].
    It gets the two handles, may do anything to the outside world through
    them, and completes or raises. *)
Definition block : Type := connection -> cursor -> world -> outcome unit * world.

(** [yield conn, cur]: the block runs here, and what it raises is raised
    here. *)
Definition yield (body : block) (conn : connection) (cur : cursor) : M world unit :=
  call (Yield conn cur) (body conn cur).

(** The [except sc.errors.ProgrammingError as e:] clause, lines 31-38. *)
Definition on_programming_error (conn : connection) (e : exn)
  : option (M world unit) :=
  match e with
  | ProgrammingError errno sqlstate msg sfqid =>
      Some (print (exn_str e) >>
            print (custom_message errno sqlstate msg sfqid) >>
            rollback conn >>
            raise e)
  | OtherError _ => None
  end.

(** The [try:] and [except:] clauses, lines 29-38. *)
Definition guarded (body : block) (conn : connection) (cur : cursor) : M world unit :=
  try_except (yield body conn cur) (on_programming_error conn).

(** The [finally:] clause, lines 39-41. *)
Definition release (conn : connection) (cur : cursor) : M world unit :=
  close_cursor cur >> close_connection conn.

(** [with snowflake_cursor() as (conn, cur): body], with the generator under
    [@contextmanager] read the way [contextlib] runs it.  Entering runs the
    generator up to its [yield]: an exception before the [yield] leaves the
    [with] statement at once, and the block does not run.  The block runs at
    the [yield].  When it completes, the generator is resumed; when it raises,
    its exception is thrown into the generator at the [yield].  Either way the
    rest of the [try] statement runs, and the exception that leaves the
    generator (the one thrown in, or another one raised on the way out) is
    the one the [with] statement raises. *)
Definition snowflake_cursor (body : block) : M world unit :=
  let* conn := connect connection_name session_parameters in
  let* cur := open_cursor conn in
  try_finally (guarded body conn cur) (release conn cur).

(** Both handles were acquired from state [w], leaving state [w2]. *)
Definition acquired (w : world) (conn : connection) (cur : cursor) (w2 : world) : Prop :=
  exists w1,
    sc_connect connection_name session_parameters w = (Returned conn, w1)
    /\ conn_cursor conn w1 = (Returned cur, w2).
End Helper.
Arguments block : clear implicits.

(** ** Reading a run *)

Definition is_cursor_close (ev : event) : bool :=
  match ev with CursorClose _ => true | _ => false end.

Definition is_conn_close (ev : event) : bool :=
  match ev with ConnClose _ => true | _ => false end.

Definition is_release (ev : event) : bool :=
  is_cursor_close ev || is_conn_close ev.

(** How many entries of the log satisfy [p]. *)
Definition calls (p : event -> bool) (tr : list event) : nat :=
  length (List.filter p tr).

(** ** A driver to run the helper on

    A scripted driver: the plan says which calls raise, and what.  The state
    keeps the plan, which handles are open, and how many rollbacks the
    service has seen. *)
Module Mock.
Record plan : Type := Plan {
  connect_raises : option exn;
  cursor_raises : option exn;
  rollback_raises : option exn;
  cur_close_raises : option exn;
  conn_close_raises : option exn;
  (** the line the console cannot encode *)
  unprintable : option string
}.

Record world : Type := World {
  script : plan;
  conn_open : bool;
  cur_open : bool;
  rollbacks : nat
}.

Definition scripted {A} (fault : option exn) (a : A) (after : world) (w : world)
  : outcome A * world :=
  match fault with
  | Some e => (Raised e, w)
  | None => (Returned a, after)
  end.

Definition the_conn : connection := 1%nat.
Definition the_cur : cursor := 2%nat.

#[global] Instance driver : Driver world := {|
  sc_connect _ _ w :=
    scripted (connect_raises (script w)) the_conn
             (World (script w) true (cur_open w) (rollbacks w)) w;
  conn_cursor _ w :=
    scripted (cursor_raises (script w)) the_cur
             (World (script w) (conn_open w) true (rollbacks w)) w;
  conn_rollback _ w :=
    scripted (rollback_raises (script w)) tt
             (World (script w) (conn_open w) (cur_open w) (S (rollbacks w))) w;
  cur_close _ w :=
    scripted (cur_close_raises (script w)) tt
             (World (script w) (conn_open w) false (rollbacks w)) w;
  conn_close _ w :=
    scripted (conn_close_raises (script w)) tt
             (World (script w) false (cur_open w) (rollbacks w)) w;
  console_print line w :=
    if decide (unprintable (script w) = Some line)
    then (Raised (OtherError "UnicodeEncodeError"), w)
    else (Returned tt, w);
  exn_str e :=
    match e with
    | ProgrammingError _ _ msg _ => msg
    | OtherError name => name
    end
|}.

(** Nothing open yet. *)
Definition start (p : plan) : world := World p false false 0.

Definition no_fault : plan := Plan None None None None None None.

(** Scoped blocks: one that completes, one that raises. *)
Definition completes : block world :=
  fun _ _ w => (Returned tt, w).

Definition raises (e : exn) : block world :=
  fun _ _ w => (Raised e, w).

Definition syntax_error : exn :=
  ProgrammingError 1003 "42000" "SQL compilation error" "01b2c3d4".

Definition key_error : exn := OtherError "KeyError".

Definition network_error : exn := OtherError "OperationalError".

(** Plans with a single failing call. *)
Definition failing_connect : plan := Plan (Some network_error) None None None None None.
Definition failing_cursor : plan := Plan None (Some network_error) None None None None.
Definition failing_rollback : plan := Plan None None (Some network_error) None None None.
Definition failing_cur_close : plan := Plan None None None (Some network_error) None None.
Definition failing_conn_close : plan := Plan None None None None (Some network_error) None.

Definition encode_error : exn := OtherError "UnicodeEncodeError".

(** The console cannot encode the default text of [syntax_error]: the first
    print of the handler raises. *)
Definition failing_first_print : plan :=
  Plan None None None None None (Some "SQL compilation error").

(** The console cannot encode the customized line: the second print raises. *)
Definition failing_second_print : plan :=
  Plan None None None None None
    (Some "Error 1003 (42000): SQL compilation error (01b2c3d4)").

(** The state right after both handles were acquired. *)
Definition opened (p : plan) : world := World p true true 0.
End Mock.

(** ** Failed acquisition

    [sc.connect(...)] raises, or it returns and [conn.cursor()] raises: the
    exception, the state the failing call leaves, and the calls made. *)
Inductive acquisition_fails {world : Type} `{!Driver world} (w : world)
  : exn -> world -> list event -> Prop :=
| connect_fails e w1 :
    sc_connect connection_name session_parameters w = (Raised e, w1) ->
    acquisition_fails w e w1 [Connect connection_name session_parameters]
| cursor_fails conn e w1 w2 :
    sc_connect connection_name session_parameters w = (Returned conn, w1) ->
    conn_cursor conn w1 = (Raised e, w2) ->
    acquisition_fails w e w2
      [Connect connection_name session_parameters; Cursor conn].

Definition is_yield (ev : event) : bool :=
  match ev with Yield _ _ => true | _ => false end.

Definition is_connect (ev : event) : bool :=
  match ev with Connect _ _ => true | _ => false end.

Definition is_cursor (ev : event) : bool :=
  match ev with Cursor _ => true | _ => false end.

Definition is_rollback (ev : event) : bool :=
  match ev with Rollback _ => true | _ => false end.

Definition is_stdout (ev : event) : bool :=
  match ev with Stdout _ => true | _ => false end.

(** ** One session after the other

    The module level from line 63 on: one
    [with snowflake_cursor() as (conn, cur):] statement after the other, each
    with its own block.  A statement that raises ends the script: the
    statements after it do not run. *)
Section Sessions.
Context {world : Type} `{!Driver world}.

Fixpoint sessions (bodies : list (block world)) : M world unit :=
  match bodies with
  | [] => ret tt
  | body :: rest => snowflake_cursor body >> sessions rest
  end.
End Sessions.

(** ** Inside the scoped blocks

    The code of a block is a sequence of calls into the driver and of
    prints.  It runs on the same outside world, and what it prints is part
    of that world; a call that raises ends the block. *)

Definition Body (world A : Type) : Type := world -> outcome A * world.

Section BodyMonad.
Context {world : Type}.

Definition b_ret {A} (a : A) : Body world A := fun w => (Returned a, w).

Definition b_raise {A} (e : exn) : Body world A := fun w => (Raised e, w).

Definition b_bind {A B} (m : Body world A) (f : A -> Body world B) : Body world B :=
  fun w =>
    match m w with
    | (Returned a, w1) => f a w1
    | (Raised e, w1) => (Raised e, w1)
    end.

(** [l[i]] on a list, for [i >= 0]: [IndexError] when out of range. *)
Definition item {A} (l : list A) (i : nat) : Body world A :=
  match l !! i with
  | Some x => b_ret x
  | None => b_raise (OtherError "IndexError")
  end.
End BodyMonad.

Declare Scope block_scope.
Delimit Scope block_scope with block.
Notation "'let*' x := m 'in' k" := (b_bind m (fun x => k))
  (at level 10, x name, m at level 100, k at level 200) : block_scope.
Notation "m >> k" := (b_bind m (fun _ => k))
  (at level 100, k at level 200, right associativity) : block_scope.

Section Loops.
Context {world : Type}.
Local Open Scope block_scope.

(** [for x in xs: step x], over a list. *)
Fixpoint for_each {X} (xs : list X) (step : X -> Body world unit) : Body world unit :=
  match xs with
  | [] => b_ret tt
  | x :: rest => step x >> for_each rest step
  end.
End Loops.

(** The operations of the driver the blocks below use.  Like those of the
    helper, each may return or raise and may change the outside world.
    [value] is what a cell of a row holds; [str_row] and [str_rows] are
    [str] on a row (a tuple) and on a list of rows. *)
Class Queries (world value : Type) : Type := {
  cur_execute : cursor -> string -> world -> outcome unit * world;
  cur_fetchall : cursor -> world -> outcome (list (list value)) * world;
  cur_execute_async : cursor -> string -> world -> outcome unit * world;
  cur_sfqid : cursor -> world -> outcome (option string) * world;
  cur_get_results_from_sfqid : cursor -> option string -> world -> outcome unit * world;
  stdout_write : string -> world -> world;
  str_row : list value -> string;
  str_rows : list (list value) -> string
}.

Definition nl : string := String (Ascii.ascii_of_nat 10) EmptyString.

Section Blocks.
Context {world value : Type} `{!Queries world value}.
Local Open Scope block_scope.

(** [print(line)] inside a block. *)
Definition say (line : string) : Body world unit :=
  fun w => (Returned tt, stdout_write line w).

(** Lines 110-111, the body of the loop for one [query]. *)
Definition execute_and_print (cur : cursor) (query : string) : Body world unit :=
  cur_execute cur query >>
  let* rows := cur_fetchall cur in
  say (str_rows rows).

(** Lines 109-111: [for query in queries: ...]. *)
Definition execute_and_print_each (cur : cursor) (queries : list string)
  : Body world unit :=
  for_each queries (execute_and_print cur).

(** Lines 114-127. *)
Definition use_async_query : block world := fun conn cur =>
  say (nl +:+ "====== use async query") >>
  cur_execute_async cur "select 1;" >>
  let* query_id := cur_sfqid cur in
  cur_execute_async cur "SELECT CURRENT_ROLE();" >>
  cur_get_results_from_sfqid cur query_id >>
  let* results := cur_fetchall cur in
  let* first := item results 0 in
  say (str_row first).
End Blocks.

(** ** Shaping the result: column names and dict-mapped rows *)

(** [sep.join(parts)] *)
Fixpoint join (sep : string) (parts : list string) : string :=
  match parts with
  | [] => ""
  | [s] => s
  | s :: rest => s +:+ sep +:+ join sep rest
  end.

Section Dict.
Context {V : Type}.

(** A dict with string keys, in insertion order.  [d[k] = v]: a key already
    there keeps its place and gets the new value, a new key goes last. *)
Fixpoint dict_set (k : string) (v : V) (d : list (string * V)) : list (string * V) :=
  match d with
  | [] => [(k, v)]
  | (k', v') :: rest =>
      if decide (k' = k) then (k', v) :: rest else (k', v') :: dict_set k v rest
  end.

(** [dict(pairs)]: the pairs are set one after the other. *)
Definition dict (pairs : list (string * V)) : list (string * V) :=
  fold_left (fun d kv => dict_set kv.1 kv.2 d) pairs [].

(** [d.get(k)]: [None] for a key that is not there (where [d[k]] raises
    [KeyError]). *)
Fixpoint dict_get (k : string) (d : list (string * V)) : option V :=
  match d with
  | [] => None
  | (k', v) :: rest => if decide (k' = k) then Some v else dict_get k rest
  end.

(** [d.keys()] *)
Definition dict_keys (d : list (string * V)) : list string := d.*1.
End Dict.

Section Shaping.
Context {column value : Type} (name : column -> string).

(** [[col.name for col in result_meta]] *)
Definition column_names (result_meta : list column) : list string :=
  name <$> result_meta.

(** Line 75, the line printed. *)
Definition header_line (result_metadata_list : list column) : string :=
  join "," (column_names result_metadata_list).

(** Line 78, given the description and the rows the cursor yields. *)
Definition rows_as_dicts (result_meta : list column) (rows : list (list value))
  : list (list (string * value)) :=
  (fun row => dict (zip (column_names result_meta) row)) <$> rows.
End Shaping.

(** Whether a string has a comma in it. *)
Fixpoint has_comma (s : string) : bool :=
  match s with
  | EmptyString => false
  | String c rest => Ascii.eqb c (Ascii.ascii_of_nat 44) || has_comma rest
  end.

(** ** A service to run the blocks on

    The scripted driver of the helper, with a service behind it: it answers
    every fetch with the same rows, refuses one statement, and keeps what
    was sent to it and what was printed. *)
Module Lab.
Record world : Type := World {
  service : Mock.world;
  result : list (list Z);
  refused : option string;
  sent : list string;
  console : list string
}.

Definition lift {A} (op : Mock.world -> outcome A * Mock.world) (w : world)
  : outcome A * world :=
  let '(o, s) := op (service w) in
  (o, World s (result w) (refused w) (sent w) (console w)).

#[global] Instance driver : Driver world := {|
  sc_connect name params := lift (sc_connect name params);
  conn_cursor conn := lift (conn_cursor conn);
  conn_rollback conn := lift (conn_rollback conn);
  cur_close cur := lift (cur_close cur);
  conn_close conn := lift (conn_close conn);
  console_print line := lift (console_print line);
  exn_str := exn_str (world := Mock.world)
|}.

Definition send (query : string) (w : world) : outcome unit * world :=
  if decide (refused w = Some query) then (Raised Mock.syntax_error, w)
  else (Returned tt,
        World (service w) (result w) (refused w) (sent w ++ [query]) (console w)).

Definition show_row (row : list Z) : string := join "," (pretty <$> row).

#[global] Instance queries : Queries world Z := {|
  cur_execute _ := send;
  cur_fetchall _ w := (Returned (result w), w);
  cur_execute_async _ := send;
  cur_sfqid _ w := (Returned (Some "01b2c3d4"), w);
  cur_get_results_from_sfqid _ _ w := (Returned tt, w);
  stdout_write line w :=
    World (service w) (result w) (refused w) (sent w) (console w ++ [line]);
  str_row := show_row;
  str_rows rows := join ";" (show_row <$> rows)
|}.

(** Nothing open, nothing sent, nothing printed. *)
Definition start (rows : list (list Z)) (refuses : option string) : world :=
  World (Mock.start Mock.no_fault) rows refuses [] [].

(** Both handles open. *)
Definition opened (rows : list (list Z)) (refuses : option string) : world :=
  World (Mock.opened Mock.no_fault) rows refuses [] [].
End Lab.

(** ** How a run unfolds *)

Ltac unfold_helper :=
  unfold snowflake_cursor, guarded, release, yield, on_programming_error,
    connect, open_cursor, rollback, close_cursor, close_connection,
    try_finally, try_except, bind, print, call, raise in *.

Lemma calls_app (p : event -> bool) (tr1 tr2 : list event) :
  calls p (tr1 ++ tr2) = calls p tr1 + calls p tr2.
Proof. unfold calls. by rewrite List.filter_app, length_app. Qed.

Section Unfolding.
Context {world : Type} `{!Driver world}.
Implicit Types (body : block world) (w : world) (conn : connection) (cur : cursor).

(** The [finally:] clause stops at the first call that raises. *)
Lemma release_run conn cur w :
  release conn cur w =
    match cur_close cur w with
    | (Raised e, w1) => Run (Raised e) w1 [CursorClose cur]
    | (Returned _, w1) =>
        let '(o, w2) := conn_close conn w1 in
        Run o w2 [CursorClose cur; ConnClose conn]
    end.
Proof.
  unfold_helper. destruct (cur_close cur w) as [[[]|e] w1]; simpl; [|done].
  by destruct (conn_close conn w1) as [o w2].
Qed.

(** The [finally:] clause prints nothing and rolls nothing back. *)
Lemma release_calls conn cur w :
  calls is_stdout (trace (release conn cur w)) = 0
  /\ calls is_rollback (trace (release conn cur w)) = 0.
Proof.
  rewrite release_run. destruct (cur_close cur w) as [[[]|e] w1]; simpl; [|done].
  by destruct (conn_close conn w1) as [o w2].
Qed.

(** The [try:] and [except:] clauses: the block alone, or the block and then
    the handler, which stops at the first of its calls that raises. *)
Lemma guarded_run body conn cur w :
  guarded body conn cur w =
    match body conn cur w with
    | (Returned _, w1) => Run (Returned tt) w1 [Yield conn cur]
    | (Raised (OtherError name), w1) =>
        Run (Raised (OtherError name)) w1 [Yield conn cur]
    | (Raised (ProgrammingError errno sqlstate msg sfqid as e), w1) =>
        match console_print (exn_str e) w1 with
        | (Raised e1, w2) =>
            Run (Raised e1) w2 [Yield conn cur; Stdout (exn_str e)]
        | (Returned _, w2) =>
            match console_print (custom_message errno sqlstate msg sfqid) w2 with
            | (Raised e2, w3) =>
                Run (Raised e2) w3
                    [Yield conn cur; Stdout (exn_str e);
                     Stdout (custom_message errno sqlstate msg sfqid)]
            | (Returned _, w3) =>
                let '(o, w4) := conn_rollback conn w3 in
                Run (match o with Returned _ => Raised e | Raised e' => Raised e' end)
                    w4
                    [Yield conn cur; Stdout (exn_str e);
                     Stdout (custom_message errno sqlstate msg sfqid);
                     Rollback conn]
            end
        end
    end.
Proof.
  unfold_helper. destruct (body conn cur w) as [[[]|[errno sqlstate msg sfqid|name]] w1];
    simpl; try done.
  destruct (console_print _ w1) as [[[]|e1] w2]; simpl; [|done].
  destruct (console_print _ w2) as [[[]|e2] w3]; simpl; [|done].
  by destruct (conn_rollback conn w3) as [[[]|e'] w4].
Qed.

(** Once both handles are there, the rest is the [try] statement. *)
Lemma snowflake_cursor_run body w conn cur w2 :
  acquired w conn cur w2 ->
  snowflake_cursor body w =
    let g := guarded body conn cur w2 in
    let f := release conn cur (final g) in
    Run (match res f with Returned _ => res g | Raised e' => Raised e' end)
        (final f)
        (Connect connection_name session_parameters :: Cursor conn
           :: trace g ++ trace f).
Proof.
  intros (w1 & Hconn & Hcur).
  unfold snowflake_cursor, connect, open_cursor, bind, call, try_finally.
  rewrite Hconn. simpl. rewrite Hcur. simpl.
  by destruct (res (release conn cur (final (guarded body conn cur w2)))).
Qed.

(** Nothing is released inside the [try:] and [except:] clauses: the calls
    made there are the block and then the first calls of the handler. *)
Lemma guarded_trace body conn cur w :
  exists line1 line2 handler,
    trace (guarded body conn cur w) = Yield conn cur :: handler
    /\ (handler = [] \/ handler = [Stdout line1]
        \/ handler = [Stdout line1; Stdout line2]
        \/ handler = [Stdout line1; Stdout line2; Rollback conn]).
Proof.
  rewrite guarded_run.
  destruct (body conn cur w) as [[[]|[errno sqlstate msg sfqid|name]] w1];
    simpl; try (by exists "", "", []; auto).
  exists (exn_str (ProgrammingError errno sqlstate msg sfqid)),
    (custom_message errno sqlstate msg sfqid).
  destruct (console_print _ w1) as [[[]|e1] w2]; simpl; [|eauto 6].
  destruct (console_print _ w2) as [[[]|e2] w3]; simpl; [|eauto 6].
  destruct (conn_rollback conn w3) as [o w4]. simpl. eauto 7.
Qed.

(** The counts of the calls made inside the [try:] and [except:] clauses. *)
Lemma guarded_calls body conn cur w :
  let tr := trace (guarded body conn cur w) in
  head tr = Some (Yield conn cur)
  /\ calls is_connect tr = 0
  /\ calls is_cursor tr = 0
  /\ calls is_yield tr = 1
  /\ calls is_cursor_close tr = 0
  /\ calls is_conn_close tr = 0
  /\ calls is_release tr = 0.
Proof.
  destruct (guarded_trace body conn cur w) as (line1 & line2 & handler & -> & Hh).
  destruct Hh as [-> | [-> | [-> | ->]]]; done.
Qed.

(** The [try:] and [except:] clauses complete only when the block did: the
    handler always ends by raising. *)
Lemma guarded_returned body conn cur w :
  res (guarded body conn cur w) = Returned tt ->
  exists w1, body conn cur w = (Returned tt, w1)
             /\ guarded body conn cur w = Run (Returned tt) w1 [Yield conn cur].
Proof.
  rewrite guarded_run.
  destruct (body conn cur w) as [[[]|[errno sqlstate msg sfqid|name]] w1];
    simpl; [by exists w1| |discriminate].
  destruct (console_print _ w1) as [[[]|e1] w2]; simpl; [|discriminate].
  destruct (console_print _ w2) as [[[]|e2] w3]; simpl; [|discriminate].
  destruct (conn_rollback conn w3) as [[[]|e'] w4]; simpl; discriminate.
Qed.
End Unfolding.

(** ** Entry: the connection request *)

Example json_dumps_user :
  json_dumps [("user", "xiang")]
  = "{" +:+ dquote +:+ "user" +:+ dquote +:+ ": " +:+ dquote +:+ "xiang" +:+ dquote +:+ "}".
Proof. reflexivity. Qed.

Section Entry.
Context {world : Type} `{!Driver world}.

(** C5.  The first thing the helper does is connect, with the profile name
    [dev] and a session-parameter dict of exactly two entries: the tracing
    tag (the JSON text of [{user: xiang}]) and the statement timeout, 300
    seconds.  The driver is called with these very arguments: its answer to
    them is what the helper continues with or raises. *)
Theorem connect_forwards_profile_and_session_parameters
    (body : block world) (w : world) :
  connection_name = "dev"
  /\ session_parameters !! "QUERY_TAG"
     = Some (PStr ("{" +:+ dquote +:+ "user" +:+ dquote +:+ ": "
                     +:+ dquote +:+ "xiang" +:+ dquote +:+ "}"))
  /\ session_parameters !! "STATEMENT_TIMEOUT_IN_SECONDS" = Some (PInt 300)
  /\ dom session_parameters
     = ({["QUERY_TAG"; "STATEMENT_TIMEOUT_IN_SECONDS"]} : gset string)
  /\ head (trace (snowflake_cursor body w))
     = Some (Connect "dev" session_parameters)
  /\ match sc_connect "dev" session_parameters w with
     | (Raised e, w1) =>
         snowflake_cursor body w
         = Run (Raised e) w1 [Connect "dev" session_parameters]
     | (Returned conn, w1) =>
         exists rest,
           trace (snowflake_cursor body w)
           = Connect "dev" session_parameters :: Cursor conn :: rest
     end.
Proof.
  split; [done|]. split; [done|]. split; [done|].
  split.
  { unfold session_parameters. rewrite !dom_insert_L, dom_empty_L. set_solver. }
  unfold snowflake_cursor, connect, open_cursor, bind, call, connection_name.
  destruct (sc_connect "dev" session_parameters w) as [[conn|e] w1]; simpl; [|done].
  destruct (conn_cursor conn w1) as [[cur|e] w2]; simpl; eauto.
Qed.
End Entry.

(** ** Acquisition that fails *)

Section Acquisition.
Context {world : Type} `{!Driver world}.

(** C10.  When the connect call raises, or cursor creation raises after a
    successful connect, the helper makes no further call: the block does not
    run and nothing is released.  The exception of the failing call is
    raised, and the state is the one that call left; after a failed cursor
    creation the connection just opened is never closed. *)
Theorem failed_acquisition_releases_nothing
    (body : block world) (w : world) (e : exn) (w' : world) (tr : list event) :
  acquisition_fails w e w' tr ->
  snowflake_cursor body w = Run (Raised e) w' tr
  /\ calls is_release tr = 0
  /\ calls is_yield tr = 0.
Proof.
  intros Hfail. unfold snowflake_cursor, connect, open_cursor, bind, call.
  destruct Hfail as [e w1 Hconn | conn e w1 w2 Hconn Hcur].
  - rewrite Hconn. done.
  - rewrite Hconn. simpl. rewrite Hcur. done.
Qed.
End Acquisition.

Lemma failed_acquisition_releases_nothing_witness :
  acquisition_fails (Mock.start Mock.failing_cursor) Mock.network_error
    (Mock.World Mock.failing_cursor true false 0)
    [Connect connection_name session_parameters; Cursor Mock.the_conn]
  /\ snowflake_cursor Mock.completes (Mock.start Mock.failing_cursor)
     = Run (Raised Mock.network_error) (Mock.World Mock.failing_cursor true false 0)
         [Connect connection_name session_parameters; Cursor Mock.the_conn]
  /\ Mock.conn_open (final (snowflake_cursor Mock.completes
                              (Mock.start Mock.failing_cursor))) = true.
Proof.
  assert (Hfail : acquisition_fails (Mock.start Mock.failing_cursor)
            Mock.network_error (Mock.World Mock.failing_cursor true false 0)
            [Connect connection_name session_parameters; Cursor Mock.the_conn]).
  { apply (cursor_fails _ Mock.the_conn Mock.network_error
             (Mock.World Mock.failing_cursor true false 0)); reflexivity. }
  split; [exact Hfail|].
  destruct (failed_acquisition_releases_nothing Mock.completes _ _ _ _ Hfail)
    as (Hrun & _ & _).
  split; [exact Hrun|]. rewrite Hrun. reflexivity.
Defined.

(** ** Release at the end of a session *)

Section Release.
Context {world : Type} `{!Driver world}.
Implicit Types (body : block world) (w : world) (conn : connection) (cur : cursor).

(** C1, as the code has it.  On every exit path of the block (it completes,
    it raises a ProgrammingError, it raises anything else) the helper calls
    the cursor's close exactly once, after the block and the handler and
    with nothing released before.  When that call returns, the connection's
    close is called right after it, once, as the last call.  When it raises,
    the connection's close is not called and that exception leaves the
    helper.  No close is called twice. *)
Theorem cursor_closed_once_then_connection body w conn cur w2 :
  acquired w conn cur w2 ->
  let g := guarded body conn cur w2 in
  let r := snowflake_cursor body w in
  exists after,
    trace r = Connect connection_name session_parameters :: Cursor conn
                :: trace g ++ CursorClose cur :: after
    /\ head (trace g) = Some (Yield conn cur)
    /\ calls is_release (trace g) = 0
    /\ match cur_close cur (final g) with
       | (Returned _, w3) => after = [ConnClose conn]
       | (Raised e, w3) => after = [] /\ res r = Raised e /\ final r = w3
       end
    /\ calls is_cursor_close (trace r) = 1
    /\ calls is_conn_close (trace r) <= 1.
Proof.
  intros Hacq g r. subst r. rewrite (snowflake_cursor_run _ _ _ _ _ Hacq).
  simpl. fold g. rewrite release_run.
  destruct (guarded_trace body conn cur w2) as (line1 & line2 & handler & Hg & Hh).
  fold g in Hg.
  destruct (cur_close cur (final g)) as [[[]|e] w3]; simpl.
  - destruct (conn_close conn w3) as [o w4]; simpl.
    exists [ConnClose conn].
    destruct Hh as [-> | [-> | [-> | ->]]]; rewrite Hg; simpl;
      repeat split; auto.
  - exists [].
    destruct Hh as [-> | [-> | [-> | ->]]]; rewrite Hg; simpl;
      repeat split; auto.
Qed.

(** C4, as the code has it.  The cursor's close is always attempted.  The
    connection's close is attempted exactly when the cursor's close
    returned; when the cursor's close raises, the helper stops there: the
    connection's close is never called, the exception of the cursor's close
    is what the helper raises, and the state is the one that call left. *)
Theorem connection_close_needs_cursor_close body w conn cur w2 :
  acquired w conn cur w2 ->
  let g := guarded body conn cur w2 in
  let r := snowflake_cursor body w in
  calls is_cursor_close (trace r) = 1
  /\ match cur_close cur (final g) with
     | (Returned _, w3) =>
         calls is_conn_close (trace r) = 1
         /\ last (trace r) = Some (ConnClose conn)
         /\ final r = (conn_close conn w3).2
     | (Raised e, w3) =>
         calls is_conn_close (trace r) = 0
         /\ last (trace r) = Some (CursorClose cur)
         /\ res r = Raised e
         /\ final r = w3
     end.
Proof.
  intros Hacq g r. subst r. rewrite (snowflake_cursor_run _ _ _ _ _ Hacq).
  simpl. fold g. rewrite release_run.
  destruct (guarded_trace body conn cur w2) as (line1 & line2 & handler & Hg & Hh).
  fold g in Hg.
  destruct (cur_close cur (final g)) as [[[]|e] w3]; simpl.
  - destruct (conn_close conn w3) as [o w4]; simpl.
    destruct Hh as [-> | [-> | [-> | ->]]]; rewrite Hg; simpl;
      repeat split; auto.
  - destruct Hh as [-> | [-> | [-> | ->]]]; rewrite Hg; simpl;
      repeat split; auto.
Qed.
End Release.

(** ** What the caller observes *)

Section Propagation.
Context {world : Type} `{!Driver world}.
Implicit Types (body : block world) (w : world) (conn : connection) (cur : cursor).

(** C2, as the code has it.  When the block raises a ProgrammingError, the
    handler starts: it calls print with the default text of the error; when
    that print returns, it calls print with the customized message made of
    the error code, SQL state, message and query id; when that print
    returns too, it calls rollback on the connection.  The handler stops at
    the first of these calls that raises.  What it did comes before the
    cursor's close, which is the next call.  The helper always ends by
    raising.  When both prints, the rollback and both closes return, what
    it raises is the very error of the block, fields unchanged. *)
Theorem programming_error_logged_rolled_back_reraised
    body w conn cur w2 errno sqlstate msg sfqid w3 :
  let e := ProgrammingError errno sqlstate msg sfqid in
  let r := snowflake_cursor body w in
  let entered :=
    [Connect connection_name session_parameters; Cursor conn; Yield conn cur] in
  let handler :=
    [Stdout (exn_str e); Stdout (custom_message errno sqlstate msg sfqid);
     Rollback conn] in
  let called :=
    match console_print (exn_str e) w3 with
    | (Raised _, _) => 1
    | (Returned _, w4) =>
        match console_print (custom_message errno sqlstate msg sfqid) w4 with
        | (Raised _, _) => 2
        | (Returned _, _) => 3
        end
    end in
  acquired w conn cur w2 ->
  body conn cur w2 = (Raised e, w3) ->
  (exists after, trace r = entered ++ take called handler ++ CursorClose cur :: after
                 /\ (after = [] \/ after = [ConnClose conn]))
  /\ (exists e', res r = Raised e')
  /\ (forall w4 w5 w6 w7 w8,
        console_print (exn_str e) w3 = (Returned tt, w4) ->
        console_print (custom_message errno sqlstate msg sfqid) w4
          = (Returned tt, w5) ->
        conn_rollback conn w5 = (Returned tt, w6) ->
        cur_close cur w6 = (Returned tt, w7) ->
        conn_close conn w7 = (Returned tt, w8) ->
        r = Run (Raised e) w8
              (entered ++ handler ++ [CursorClose cur; ConnClose conn])).
Proof.
  intros e r entered handler called Hacq Hbody. subst r entered handler called.
  rewrite (snowflake_cursor_run _ _ _ _ _ Hacq). simpl.
  rewrite guarded_run, Hbody. fold e.
  split; [|split].
  - destruct (console_print (exn_str e) w3) as [[[]|e1] w4]; simpl.
    + destruct (console_print _ w4) as [[[]|e2] w5]; simpl.
      * destruct (conn_rollback conn w5) as [o w6]; simpl. rewrite release_run.
        destruct (cur_close cur w6) as [[[]|e3] w7]; simpl; [|by exists []; auto].
        destruct (conn_close conn w7) as [o' w8]; simpl.
        exists [ConnClose conn]; auto.
      * rewrite release_run.
        destruct (cur_close cur w5) as [[[]|e3] w6]; simpl; [|by exists []; auto].
        destruct (conn_close conn w6) as [o' w7]; simpl.
        exists [ConnClose conn]; auto.
    + rewrite release_run.
      destruct (cur_close cur w4) as [[[]|e3] w5]; simpl; [|by exists []; auto].
      destruct (conn_close conn w5) as [o' w6]; simpl.
      exists [ConnClose conn]; auto.
  - destruct (console_print (exn_str e) w3) as [[[]|e1] w4]; simpl.
    + destruct (console_print _ w4) as [[[]|e2] w5]; simpl.
      * destruct (conn_rollback conn w5) as [[[]|e'] w6]; simpl; rewrite release_run;
          destruct (cur_close cur w6) as [[[]|e3] w7]; simpl; eauto;
          destruct (conn_close conn w7) as [[[]|e4] w8]; simpl; eauto.
      * rewrite release_run.
        destruct (cur_close cur w5) as [[[]|e3] w6]; simpl; eauto.
        destruct (conn_close conn w6) as [[[]|e4] w7]; simpl; eauto.
    + rewrite release_run.
      destruct (cur_close cur w4) as [[[]|e3] w5]; simpl; eauto.
      destruct (conn_close conn w5) as [[[]|e4] w6]; simpl; eauto.
  - intros w4 w5 w6 w7 w8 Hp1 Hp2 Hroll Hcc Hkc.
    rewrite Hp1. simpl. rewrite Hp2. simpl. rewrite Hroll. simpl.
    rewrite release_run, Hcc, Hkc. done.
Qed.

(** C3, as the code has it.  When the block raises anything that is not a
    ProgrammingError, the helper prints nothing and rolls nothing back: the
    next call after the block is the cursor's close.  The helper always ends
    by raising.  When both closes return, what it raises is the very
    exception of the block, after the cursor and then the connection were
    closed. *)
Theorem other_failure_propagates_after_release body w conn cur w2 e w3 :
  let r := snowflake_cursor body w in
  let released :=
    [Connect connection_name session_parameters; Cursor conn; Yield conn cur;
     CursorClose cur] in
  acquired w conn cur w2 ->
  body conn cur w2 = (Raised e, w3) ->
  is_ProgrammingError e = false ->
  (exists after, trace r = released ++ after
                 /\ (after = [] \/ after = [ConnClose conn]))
  /\ (exists e', res r = Raised e')
  /\ (forall w4 w5,
        cur_close cur w3 = (Returned tt, w4) ->
        conn_close conn w4 = (Returned tt, w5) ->
        r = Run (Raised e) w5 (released ++ [ConnClose conn])).
Proof.
  intros r released Hacq Hbody Hother. subst r released.
  destruct e as [errno sqlstate msg sfqid|name]; [discriminate|].
  rewrite (snowflake_cursor_run _ _ _ _ _ Hacq). simpl.
  rewrite guarded_run, Hbody. simpl. rewrite release_run.
  destruct (cur_close cur w3) as [[[]|e1] w4] eqn:Hcur; simpl.
  - destruct (conn_close conn w4) as [[[]|e2] w5] eqn:Hconn; simpl.
    + split; [exists [ConnClose conn]; auto|]. split; [eauto|].
      intros w4' w5' [= ->]. rewrite Hconn. by intros [= ->].
    + split; [exists [ConnClose conn]; auto|]. split; [eauto|].
      intros w4' w5' [= ->]. rewrite Hconn. discriminate.
  - split; [exists []; auto|]. split; [eauto|].
    intros w4' w5'. discriminate.
Qed.
End Propagation.

(** ** Runs on the scripted driver *)

Lemma mock_acquired (p : Mock.plan) :
  Mock.connect_raises p = None ->
  Mock.cursor_raises p = None ->
  acquired (Mock.start p) Mock.the_conn Mock.the_cur (Mock.opened p).
Proof.
  intros Hconn Hcur. exists (Mock.World p true false 0).
  split; simpl; [rewrite Hconn | rewrite Hcur]; reflexivity.
Qed.

(** Every call returns and the block completes: cursor, then connection. *)
Lemma cursor_closed_once_then_connection_witness :
  acquired (Mock.start Mock.no_fault) Mock.the_conn Mock.the_cur
    (Mock.opened Mock.no_fault)
  /\ calls is_cursor_close
       (trace (snowflake_cursor Mock.completes (Mock.start Mock.no_fault))) = 1
  /\ calls is_conn_close
       (trace (snowflake_cursor Mock.completes (Mock.start Mock.no_fault))) <= 1.
Proof.
  assert (Hacq : acquired (Mock.start Mock.no_fault) Mock.the_conn Mock.the_cur
                   (Mock.opened Mock.no_fault))
    by (exists (Mock.World Mock.no_fault true false 0); split; reflexivity).
  split; [exact Hacq|].
  destruct (cursor_closed_once_then_connection Mock.completes _ _ _ _ Hacq)
    as (after & _ & _ & _ & _ & Hcur & Hconn).
  split; [exact Hcur | exact Hconn].
Defined.

(** C1 fails where the cursor's close raises: the block completed, the
    cursor's close was called and raised, and the connection's close was never
    called; the connection is still open when the helper is left. *)
Lemma cursor_close_failure_skips_connection_close :
  acquired (Mock.start Mock.failing_cur_close) Mock.the_conn Mock.the_cur
    (Mock.opened Mock.failing_cur_close)
  /\ snowflake_cursor Mock.completes (Mock.start Mock.failing_cur_close)
     = Run (Raised Mock.network_error) (Mock.opened Mock.failing_cur_close)
         [Connect "dev" session_parameters; Cursor Mock.the_conn;
          Yield Mock.the_conn Mock.the_cur; CursorClose Mock.the_cur]
  /\ calls is_conn_close
       (trace (snowflake_cursor Mock.completes (Mock.start Mock.failing_cur_close)))
     = 0
  /\ Mock.conn_open
       (final (snowflake_cursor Mock.completes (Mock.start Mock.failing_cur_close)))
     = true.
Proof.
  split; [by apply mock_acquired|]. repeat split; reflexivity.
Qed.

(** The block raises a ProgrammingError and every call returns. *)
Lemma programming_error_logged_rolled_back_reraised_witness :
  snowflake_cursor (Mock.raises Mock.syntax_error) (Mock.start Mock.no_fault)
  = Run (Raised Mock.syntax_error) (Mock.World Mock.no_fault false false 1)
      [Connect "dev" session_parameters; Cursor Mock.the_conn;
       Yield Mock.the_conn Mock.the_cur;
       Stdout "SQL compilation error";
       Stdout "Error 1003 (42000): SQL compilation error (01b2c3d4)";
       Rollback Mock.the_conn; CursorClose Mock.the_cur; ConnClose Mock.the_conn].
Proof.
  assert (Hacq : acquired (Mock.start Mock.no_fault) Mock.the_conn Mock.the_cur
                   (Mock.opened Mock.no_fault))
    by (exists (Mock.World Mock.no_fault true false 0); split; reflexivity).
  assert (Hbody : Mock.raises Mock.syntax_error Mock.the_conn Mock.the_cur
                    (Mock.opened Mock.no_fault)
                  = (Raised (ProgrammingError 1003 "42000" "SQL compilation error"
                               "01b2c3d4"),
                     Mock.opened Mock.no_fault))
    by reflexivity.
  destruct (programming_error_logged_rolled_back_reraised
              _ _ _ _ _ _ _ _ _ _ Hacq Hbody) as (_ & _ & Hsame).
  apply (Hsame (Mock.opened Mock.no_fault) (Mock.opened Mock.no_fault)
               (Mock.World Mock.no_fault true true 1)
               (Mock.World Mock.no_fault true false 1)
               (Mock.World Mock.no_fault false false 1)); reflexivity.
Defined.

(** C2 fails where the rollback raises: the block raised a ProgrammingError,
    the two lines were printed, the rollback was called and raised, both
    handles were closed, and the caller gets the rollback's exception, which
    is not a ProgrammingError. *)
Lemma rollback_failure_replaces_programming_error :
  acquired (Mock.start Mock.failing_rollback) Mock.the_conn Mock.the_cur
    (Mock.opened Mock.failing_rollback)
  /\ Mock.raises Mock.syntax_error Mock.the_conn Mock.the_cur
       (Mock.opened Mock.failing_rollback)
     = (Raised Mock.syntax_error, Mock.opened Mock.failing_rollback)
  /\ snowflake_cursor (Mock.raises Mock.syntax_error) (Mock.start Mock.failing_rollback)
     = Run (Raised Mock.network_error) (Mock.World Mock.failing_rollback false false 0)
         [Connect "dev" session_parameters; Cursor Mock.the_conn;
          Yield Mock.the_conn Mock.the_cur;
          Stdout "SQL compilation error";
          Stdout "Error 1003 (42000): SQL compilation error (01b2c3d4)";
          Rollback Mock.the_conn; CursorClose Mock.the_cur; ConnClose Mock.the_conn]
  /\ is_ProgrammingError Mock.network_error = false
  /\ Mock.network_error <> Mock.syntax_error.
Proof.
  split; [by apply mock_acquired|]. repeat split; try reflexivity. discriminate.
Qed.

(** What the spec's C2 also misses: the block raised a ProgrammingError and
    the first print of the handler raised.  Nothing else is printed, no
    rollback is requested, both handles are closed, and the caller gets the
    exception of the print. *)
Example print_failure_skips_rollback :
  snowflake_cursor (Mock.raises Mock.syntax_error)
    (Mock.start Mock.failing_first_print)
  = Run (Raised Mock.encode_error)
      (Mock.World Mock.failing_first_print false false 0)
      [Connect "dev" session_parameters; Cursor Mock.the_conn;
       Yield Mock.the_conn Mock.the_cur;
       Stdout "SQL compilation error";
       CursorClose Mock.the_cur; ConnClose Mock.the_conn].
Proof. reflexivity. Qed.

(** The block raises a KeyError and every call returns. *)
Lemma other_failure_propagates_after_release_witness :
  snowflake_cursor (Mock.raises Mock.key_error) (Mock.start Mock.no_fault)
  = Run (Raised Mock.key_error) (Mock.World Mock.no_fault false false 0)
      [Connect "dev" session_parameters; Cursor Mock.the_conn;
       Yield Mock.the_conn Mock.the_cur;
       CursorClose Mock.the_cur; ConnClose Mock.the_conn].
Proof.
  assert (Hacq : acquired (Mock.start Mock.no_fault) Mock.the_conn Mock.the_cur
                   (Mock.opened Mock.no_fault))
    by (exists (Mock.World Mock.no_fault true false 0); split; reflexivity).
  assert (Hbody : Mock.raises Mock.key_error Mock.the_conn Mock.the_cur
                    (Mock.opened Mock.no_fault)
                  = (Raised Mock.key_error, Mock.opened Mock.no_fault))
    by reflexivity.
  assert (Hother : is_ProgrammingError Mock.key_error = false) by reflexivity.
  destruct (other_failure_propagates_after_release _ _ _ _ _ _ _ Hacq Hbody Hother)
    as (_ & _ & Hsame).
  apply (Hsame (Mock.World Mock.no_fault true false 0)
               (Mock.World Mock.no_fault false false 0)); reflexivity.
Defined.

(** C3 fails where a close raises: the block raised a KeyError, the cursor
    was closed, the connection's close was called and raised, and the caller
    gets that exception instead of the KeyError. *)
Lemma connection_close_failure_replaces_other_failure :
  acquired (Mock.start Mock.failing_conn_close) Mock.the_conn Mock.the_cur
    (Mock.opened Mock.failing_conn_close)
  /\ Mock.raises Mock.key_error Mock.the_conn Mock.the_cur
       (Mock.opened Mock.failing_conn_close)
     = (Raised Mock.key_error, Mock.opened Mock.failing_conn_close)
  /\ is_ProgrammingError Mock.key_error = false
  /\ snowflake_cursor (Mock.raises Mock.key_error) (Mock.start Mock.failing_conn_close)
     = Run (Raised Mock.network_error)
         (Mock.World Mock.failing_conn_close true false 0)
         [Connect "dev" session_parameters; Cursor Mock.the_conn;
          Yield Mock.the_conn Mock.the_cur;
          CursorClose Mock.the_cur; ConnClose Mock.the_conn]
  /\ Mock.network_error <> Mock.key_error.
Proof.
  split; [by apply mock_acquired|]. repeat split; try reflexivity. discriminate.
Qed.

(** The block raises a KeyError and every call returns. *)
Lemma connection_close_needs_cursor_close_witness :
  acquired (Mock.start Mock.no_fault) Mock.the_conn Mock.the_cur
    (Mock.opened Mock.no_fault)
  /\ calls is_cursor_close
       (trace (snowflake_cursor (Mock.raises Mock.key_error)
                 (Mock.start Mock.no_fault))) = 1.
Proof.
  assert (Hacq : acquired (Mock.start Mock.no_fault) Mock.the_conn Mock.the_cur
                   (Mock.opened Mock.no_fault))
    by (exists (Mock.World Mock.no_fault true false 0); split; reflexivity).
  split; [exact Hacq|].
  exact (proj1 (connection_close_needs_cursor_close
                  (Mock.raises Mock.key_error) _ _ _ _ Hacq)).
Defined.

(** C4 fails where the cursor's close raises: the block raised a
    ProgrammingError, the handler ran, the cursor's close was called and
    raised, and the connection's close was not attempted; the connection is
    still open when the helper is left. *)
Lemma cursor_close_failure_leaks_connection :
  acquired (Mock.start Mock.failing_cur_close) Mock.the_conn Mock.the_cur
    (Mock.opened Mock.failing_cur_close)
  /\ snowflake_cursor (Mock.raises Mock.syntax_error)
       (Mock.start Mock.failing_cur_close)
     = Run (Raised Mock.network_error)
         (Mock.World Mock.failing_cur_close true true 1)
         [Connect "dev" session_parameters; Cursor Mock.the_conn;
          Yield Mock.the_conn Mock.the_cur;
          Stdout "SQL compilation error";
          Stdout "Error 1003 (42000): SQL compilation error (01b2c3d4)";
          Rollback Mock.the_conn; CursorClose Mock.the_cur]
  /\ calls is_conn_close
       (trace (snowflake_cursor (Mock.raises Mock.syntax_error)
                 (Mock.start Mock.failing_cur_close))) = 0
  /\ Mock.conn_open
       (final (snowflake_cursor (Mock.raises Mock.syntax_error)
                 (Mock.start Mock.failing_cur_close))) = true.
Proof.
  split; [by apply mock_acquired|]. repeat split; reflexivity.
Qed.

(** ** Normal completion *)

Section Completion.
Context {world : Type} `{!Driver world}.
Implicit Types (body : block world) (w : world) (conn : connection) (cur : cursor).

(** X1.  The helper swallows nothing.  It completes normally only when the
    connect call, the cursor creation, the block, the cursor's close and the
    connection's close all returned; and when they all return, the helper
    completes normally having made exactly these five calls: nothing is
    printed and nothing is rolled back. *)
Theorem normal_completion_needs_every_call_to_return body w :
  (res (snowflake_cursor body w) = Returned tt ->
   exists conn w1 cur w2 w3 w4 w5,
     sc_connect connection_name session_parameters w = (Returned conn, w1)
     /\ conn_cursor conn w1 = (Returned cur, w2)
     /\ body conn cur w2 = (Returned tt, w3)
     /\ cur_close cur w3 = (Returned tt, w4)
     /\ conn_close conn w4 = (Returned tt, w5)
     /\ snowflake_cursor body w
        = Run (Returned tt) w5
            [Connect connection_name session_parameters; Cursor conn;
             Yield conn cur; CursorClose cur; ConnClose conn])
  /\ (forall conn w1 cur w2 w3 w4 w5,
        sc_connect connection_name session_parameters w = (Returned conn, w1) ->
        conn_cursor conn w1 = (Returned cur, w2) ->
        body conn cur w2 = (Returned tt, w3) ->
        cur_close cur w3 = (Returned tt, w4) ->
        conn_close conn w4 = (Returned tt, w5) ->
        snowflake_cursor body w
        = Run (Returned tt) w5
            [Connect connection_name session_parameters; Cursor conn;
             Yield conn cur; CursorClose cur; ConnClose conn]).
Proof.
  split.
  - unfold snowflake_cursor, connect, open_cursor, bind, call.
    destruct (sc_connect connection_name session_parameters w)
      as [[conn|e] w1] eqn:Hconn; simpl; [|discriminate].
    destruct (conn_cursor conn w1) as [[cur|e] w2] eqn:Hcur; simpl; [|discriminate].
    unfold try_finally. rewrite release_run.
    destruct (cur_close cur (final (guarded body conn cur w2)))
      as [[[]|e1] w4] eqn:Hcc; simpl; [|discriminate].
    destruct (conn_close conn w4) as [[[]|e2] w5] eqn:Hkc; simpl; [|discriminate].
    intros Hg. apply guarded_returned in Hg as (w3 & Hbody & Hg).
    rewrite Hg in Hcc |- *. simpl in Hcc |- *.
    by exists conn, w1, cur, w2, w3, w4, w5.
  - intros conn w1 cur w2 w3 w4 w5 Hconn Hcur Hbody Hcc Hkc.
    rewrite (snowflake_cursor_run body w conn cur w2) by (by exists w1).
    simpl. rewrite guarded_run, Hbody. simpl. rewrite release_run, Hcc, Hkc. done.
Qed.
End Completion.

(** ** What the handler and the release do, whatever the driver answers *)

Section Handler.
Context {world : Type} `{!Driver world}.
Implicit Types (body : block world) (w : world) (conn : connection) (cur : cursor).


(** X3.  Once both handles are there, the handler runs exactly when the
    block raised a ProgrammingError.  It then calls print with the default
    text; it calls print a second time exactly when the first print
    returned; it requests the rollback, once, exactly when both prints
    returned.  When the block completed or raised anything else, print is
    not called and no rollback is requested. *)
Theorem handler_runs_only_on_programming_error body w conn cur w2 :
  acquired w conn cur w2 ->
  let tr := trace (snowflake_cursor body w) in
  match body conn cur w2 with
  | (Raised (ProgrammingError errno sqlstate msg sfqid as e), w3) =>
      match console_print (exn_str e) w3 with
      | (Raised _, _) => calls is_stdout tr = 1 /\ calls is_rollback tr = 0
      | (Returned _, w4) =>
          match console_print (custom_message errno sqlstate msg sfqid) w4 with
          | (Raised _, _) => calls is_stdout tr = 2 /\ calls is_rollback tr = 0
          | (Returned _, _) => calls is_stdout tr = 2 /\ calls is_rollback tr = 1
          end
      end
  | _ => calls is_stdout tr = 0 /\ calls is_rollback tr = 0
  end.
Proof.
  intros Hacq. rewrite (snowflake_cursor_run _ _ _ _ _ Hacq). simpl.
  set (g := guarded body conn cur w2).
  change (?a :: ?b :: ?l) with ([a; b] ++ l).
  rewrite !calls_app.
  destruct (release_calls conn cur (final g)) as [-> ->].
  subst g. rewrite guarded_run.
  destruct (body conn cur w2) as [[[]|[errno sqlstate msg sfqid|name]] w3];
    simpl; [done| |done].
  destruct (console_print _ w3) as [[[]|e1] w4]; simpl; [|done].
  destruct (console_print _ w4) as [[[]|e2] w5]; simpl; [|done].
  by destruct (conn_rollback conn w5) as [o w6].
Qed.

(** X4.  A rollback that raises does not stop the release.  The block
    raised a ProgrammingError, both prints returned, and the rollback
    raised: the cursor's close is still the next call, on the state the
    rollback left; when both closes return, what the helper raises is the
    exception of the rollback, and the error of the block is lost. *)
Theorem failed_rollback_still_releases
    body w conn cur w2 errno sqlstate msg sfqid w3 p1 p2 e' w4 :
  let e := ProgrammingError errno sqlstate msg sfqid in
  let r := snowflake_cursor body w in
  let logged :=
    [Connect connection_name session_parameters; Cursor conn; Yield conn cur;
     Stdout (exn_str e); Stdout (custom_message errno sqlstate msg sfqid);
     Rollback conn; CursorClose cur] in
  acquired w conn cur w2 ->
  body conn cur w2 = (Raised e, w3) ->
  console_print (exn_str e) w3 = (Returned tt, p1) ->
  console_print (custom_message errno sqlstate msg sfqid) p1 = (Returned tt, p2) ->
  conn_rollback conn p2 = (Raised e', w4) ->
  match cur_close cur w4 with
  | (Raised e1, w5) => r = Run (Raised e1) w5 logged
  | (Returned _, w5) =>
      match conn_close conn w5 with
      | (Raised e2, w6) => r = Run (Raised e2) w6 (logged ++ [ConnClose conn])
      | (Returned _, w6) => r = Run (Raised e') w6 (logged ++ [ConnClose conn])
      end
  end.
Proof.
  intros e r logged Hacq Hbody Hp1 Hp2 Hroll. subst r logged.
  rewrite (snowflake_cursor_run _ _ _ _ _ Hacq). simpl.
  rewrite guarded_run, Hbody. fold e.
  rewrite Hp1. simpl. rewrite Hp2. simpl. rewrite Hroll. simpl.
  rewrite release_run.
  destruct (cur_close cur w4) as [[[]|e1] w5]; simpl; [|done].
  by destruct (conn_close conn w5) as [[[]|e2] w6].
Qed.

(** X5.  A connection close that raises decides what the caller sees,
    whatever the block did: the cursor's close returned, the connection's
    close raised, and the helper raises that exception, also when the block
    had completed normally. *)
Theorem connection_close_failure_is_what_the_caller_sees
    body w conn cur w2 w3 e w4 :
  let g := guarded body conn cur w2 in
  let r := snowflake_cursor body w in
  acquired w conn cur w2 ->
  cur_close cur (final g) = (Returned tt, w3) ->
  conn_close conn w3 = (Raised e, w4) ->
  r = Run (Raised e) w4
        (Connect connection_name session_parameters :: Cursor conn
           :: trace g ++ [CursorClose cur; ConnClose conn]).
Proof.
  intros g r Hacq Hcc Hkc. subst r.
  rewrite (snowflake_cursor_run _ _ _ _ _ Hacq). simpl. fold g.
  rewrite release_run, Hcc, Hkc. done.
Qed.
End Handler.

(** ** Sessions one after the other *)

Section InSequence.
Context {world : Type} `{!Driver world}.
Implicit Types (body : block world) (bodies : list (block world)) (w : world).

(** One session connects once. *)
Lemma connects_once body w :
  calls is_connect (trace (snowflake_cursor body w)) = 1.
Proof.
  unfold snowflake_cursor, connect, open_cursor, bind, call.
  destruct (sc_connect connection_name session_parameters w) as [[conn|e] w1];
    simpl; [|done].
  destruct (conn_cursor conn w1) as [[cur|e] w2]; simpl; [|done].
  unfold try_finally. rewrite release_run.
  destruct (guarded_calls body conn cur w2) as (_ & Hg & _).
  destruct (cur_close cur (final (guarded body conn cur w2))) as [[[]|e1] w3];
    simpl; try destruct (conn_close conn w3) as [[[]|e2] w4]; simpl;
    change (?a :: ?b :: ?l) with ([a; b] ++ l); by rewrite !calls_app, Hg.
Qed.

(** The calls of a session that completed. *)
Lemma completed_trace body w :
  res (snowflake_cursor body w) = Returned tt ->
  exists conn cur,
    trace (snowflake_cursor body w)
    = [Connect connection_name session_parameters; Cursor conn;
       Yield conn cur; CursorClose cur; ConnClose conn].
Proof.
  unfold snowflake_cursor, connect, open_cursor, bind, call.
  destruct (sc_connect connection_name session_parameters w) as [[conn|e] w1];
    simpl; [|discriminate].
  destruct (conn_cursor conn w1) as [[cur|e] w2]; simpl; [|discriminate].
  unfold try_finally. rewrite release_run.
  destruct (cur_close cur (final (guarded body conn cur w2)))
    as [[[]|e1] w4]; simpl; [|discriminate].
  destruct (conn_close conn w4) as [[[]|e2] w5]; simpl; [|discriminate].
  intros Hg. apply guarded_returned in Hg as (w3 & _ & ->).
  by exists conn, cur.
Qed.

(** The first session, then the others from the state it left, unless it
    raised. *)
Lemma sessions_cons body bodies w :
  sessions (body :: bodies) w =
    let r1 := snowflake_cursor body w in
    match res r1 with
    | Returned _ =>
        let r2 := sessions bodies (final r1) in
        Run (res r2) (final r2) (trace r1 ++ trace r2)
    | Raised e => Run (Raised e) (final r1) (trace r1)
    end.
Proof. reflexivity. Qed.

Lemma sessions_app bodies1 bodies2 w :
  sessions (bodies1 ++ bodies2) w =
    let r1 := sessions bodies1 w in
    match res r1 with
    | Returned _ =>
        let r2 := sessions bodies2 (final r1) in
        Run (res r2) (final r2) (trace r1 ++ trace r2)
    | Raised e => Run (Raised e) (final r1) (trace r1)
    end.
Proof.
  revert w. induction bodies1 as [|body bodies1 IH]; intros w.
  - simpl. by destruct (sessions bodies2 w).
  - rewrite <- app_comm_cons, !sessions_cons. simpl.
    destruct (res (snowflake_cursor body w)); [|done].
    rewrite IH. simpl.
    destruct (res (sessions bodies1 (final (snowflake_cursor body w)))); simpl;
      by rewrite ?app_assoc.
Qed.

(** X6.  Sessions never overlap.  At every point of a run of the script's
    sessions, the helper has requested at most one connection more than it
    has called close on: no connection is requested while an earlier one is
    still waiting for its close. *)
Theorem sessions_never_overlap bodies w pre post :
  trace (sessions bodies w) = pre ++ post ->
  calls is_connect pre <= S (calls is_conn_close pre).
Proof.
  revert w pre post. induction bodies as [|body bodies IH]; intros w pre post.
  - simpl. intros Htr. symmetry in Htr. apply app_eq_nil in Htr as [-> _].
    unfold calls. simpl. lia.
  - rewrite sessions_cons. simpl.
    pose proof (connects_once body w) as Hone.
    destruct (res (snowflake_cursor body w)) as [[]|e] eqn:Hres; simpl.
    + destruct (completed_trace body w Hres) as (conn & cur & Htr1).
      intros Htr. apply app_eq_inv in Htr as [(k & Hk & Hpost)|(k & Hk & Hrest)].
      * assert (calls is_connect pre <= calls is_connect (trace (snowflake_cursor body w)))
          by (rewrite Hk, calls_app; lia).
        lia.
      * apply IH in Hrest. rewrite Hk, !calls_app, Hone.
        rewrite Htr1 at 1. unfold calls at 2. simpl. lia.
    + intros Htr.
      assert (calls is_connect pre <= calls is_connect (trace (snowflake_cursor body w)))
        by (rewrite Htr, calls_app; lia).
      lia.
Qed.

(** X7.  The script stops at the first session that raises.  The sessions
    before it completed; it raised; whatever comes after it in the script
    does not run: no further connection is requested, the state is the one
    the failing session left, and its exception is what the script raises. *)
Theorem sessions_stop_at_first_failure bodies body todo w e :
  let r1 := sessions bodies w in
  let r2 := snowflake_cursor body (final r1) in
  res r1 = Returned tt ->
  res r2 = Raised e ->
  sessions (bodies ++ body :: todo) w
  = Run (Raised e) (final r2) (trace r1 ++ trace r2).
Proof.
  intros r1 r2 Hres1 Hres2. rewrite sessions_app. cbv zeta. fold r1.
  rewrite Hres1, sessions_cons. cbv zeta. fold r2. rewrite Hres2. done.
Qed.

(** X8.  When the script's sessions complete normally, every session was
    opened and closed: as many connections requested, cursors closed and
    connections closed as there are sessions, nothing printed by the handler
    and nothing rolled back. *)
Theorem completed_sessions_were_all_closed bodies w :
  res (sessions bodies w) = Returned tt ->
  let tr := trace (sessions bodies w) in
  calls is_connect tr = length bodies
  /\ calls is_yield tr = length bodies
  /\ calls is_cursor_close tr = length bodies
  /\ calls is_conn_close tr = length bodies
  /\ calls is_rollback tr = 0
  /\ calls is_stdout tr = 0.
Proof.
  revert w. induction bodies as [|body bodies IH]; intros w; [done|].
  rewrite sessions_cons. simpl.
  destruct (res (snowflake_cursor body w)) as [[]|e] eqn:Hres; simpl; [|discriminate].
  destruct (completed_trace body w Hres) as (conn & cur & ->).
  intros Hrest. specialize (IH _ Hrest). simpl in IH.
  destruct IH as (H1 & H2 & H3 & H4 & H5 & H6).
  change (?a :: ?b :: ?c :: ?d :: ?e :: ?l) with ([a; b; c; d; e] ++ l).
  rewrite !calls_app, H1, H2, H3, H4, H5, H6. done.
Qed.
End InSequence.

(** ** More runs on the scripted driver *)

(** The block raises a ProgrammingError and the console cannot encode its
    default text: print was called once and no rollback was requested. *)
Lemma handler_runs_only_on_programming_error_witness :
  calls is_stdout
    (trace (snowflake_cursor (Mock.raises Mock.syntax_error)
              (Mock.start Mock.failing_first_print))) = 1
  /\ calls is_rollback
       (trace (snowflake_cursor (Mock.raises Mock.syntax_error)
                 (Mock.start Mock.failing_first_print))) = 0.
Proof.
  exact (handler_runs_only_on_programming_error
           (Mock.raises Mock.syntax_error) (Mock.start Mock.failing_first_print)
           Mock.the_conn Mock.the_cur (Mock.opened Mock.failing_first_print)
           (mock_acquired Mock.failing_first_print eq_refl eq_refl)).
Defined.

(** The block raises a ProgrammingError and the rollback raises: both
    handles are closed, and the caller gets the exception of the rollback. *)
Lemma failed_rollback_still_releases_witness :
  snowflake_cursor (Mock.raises Mock.syntax_error) (Mock.start Mock.failing_rollback)
  = Run (Raised Mock.network_error) (Mock.World Mock.failing_rollback false false 0)
      [Connect "dev" session_parameters; Cursor Mock.the_conn;
       Yield Mock.the_conn Mock.the_cur;
       Stdout "SQL compilation error";
       Stdout "Error 1003 (42000): SQL compilation error (01b2c3d4)";
       Rollback Mock.the_conn; CursorClose Mock.the_cur; ConnClose Mock.the_conn].
Proof.
  exact (failed_rollback_still_releases
           (Mock.raises Mock.syntax_error) (Mock.start Mock.failing_rollback)
           Mock.the_conn Mock.the_cur (Mock.opened Mock.failing_rollback)
           1003 "42000" "SQL compilation error" "01b2c3d4"
           (Mock.opened Mock.failing_rollback)
           (Mock.opened Mock.failing_rollback) (Mock.opened Mock.failing_rollback)
           Mock.network_error (Mock.opened Mock.failing_rollback)
           (mock_acquired Mock.failing_rollback eq_refl eq_refl)
           eq_refl eq_refl eq_refl eq_refl).
Defined.

(** The block completes and the connection's close raises: the helper
    raises, with the connection still open. *)
Lemma connection_close_failure_is_what_the_caller_sees_witness :
  snowflake_cursor Mock.completes (Mock.start Mock.failing_conn_close)
  = Run (Raised Mock.network_error)
      (Mock.World Mock.failing_conn_close true false 0)
      [Connect "dev" session_parameters; Cursor Mock.the_conn;
       Yield Mock.the_conn Mock.the_cur;
       CursorClose Mock.the_cur; ConnClose Mock.the_conn].
Proof.
  exact (connection_close_failure_is_what_the_caller_sees
           Mock.completes (Mock.start Mock.failing_conn_close)
           Mock.the_conn Mock.the_cur (Mock.opened Mock.failing_conn_close)
           (Mock.World Mock.failing_conn_close true false 0) Mock.network_error
           (Mock.World Mock.failing_conn_close true false 0)
           (mock_acquired Mock.failing_conn_close eq_refl eq_refl) eq_refl eq_refl).
Defined.

(** Two sessions, cut right after the second connection request: two
    requested, one closed. *)
Lemma sessions_never_overlap_witness :
  calls is_connect
    [Connect "dev" session_parameters; Cursor Mock.the_conn;
     Yield Mock.the_conn Mock.the_cur;
     CursorClose Mock.the_cur; ConnClose Mock.the_conn;
     Connect "dev" session_parameters]
  <= S (calls is_conn_close
          [Connect "dev" session_parameters; Cursor Mock.the_conn;
           Yield Mock.the_conn Mock.the_cur;
           CursorClose Mock.the_cur; ConnClose Mock.the_conn;
           Connect "dev" session_parameters]).
Proof.
  apply (sessions_never_overlap
           [Mock.completes; Mock.raises Mock.key_error] (Mock.start Mock.no_fault)
           _ [Cursor Mock.the_conn; Yield Mock.the_conn Mock.the_cur;
              CursorClose Mock.the_cur; ConnClose Mock.the_conn]).
  reflexivity.
Defined.

(** Three sessions, the second one raising: the third never connects. *)
Lemma sessions_stop_at_first_failure_witness :
  sessions [Mock.completes; Mock.raises Mock.key_error; Mock.completes]
    (Mock.start Mock.no_fault)
  = Run (Raised Mock.key_error) (Mock.World Mock.no_fault false false 0)
      [Connect "dev" session_parameters; Cursor Mock.the_conn;
       Yield Mock.the_conn Mock.the_cur;
       CursorClose Mock.the_cur; ConnClose Mock.the_conn;
       Connect "dev" session_parameters; Cursor Mock.the_conn;
       Yield Mock.the_conn Mock.the_cur;
       CursorClose Mock.the_cur; ConnClose Mock.the_conn].
Proof.
  exact (sessions_stop_at_first_failure
           [Mock.completes] (Mock.raises Mock.key_error) [Mock.completes]
           (Mock.start Mock.no_fault) Mock.key_error eq_refl eq_refl).
Defined.

(** Two sessions that complete. *)
Lemma completed_sessions_were_all_closed_witness :
  calls is_connect
    (trace (sessions [Mock.completes; Mock.completes] (Mock.start Mock.no_fault)))
  = 2
  /\ calls is_conn_close
       (trace (sessions [Mock.completes; Mock.completes] (Mock.start Mock.no_fault)))
     = 2.
Proof.
  assert (Hres : res (sessions [Mock.completes; Mock.completes]
                        (Mock.start Mock.no_fault)) = Returned tt)
    by reflexivity.
  destruct (completed_sessions_were_all_closed
              [Mock.completes; Mock.completes] (Mock.start Mock.no_fault) Hres)
    as (Hconnect & _ & _ & Hclose & _ & _).
  split; [exact Hconnect | exact Hclose].
Defined.

(** ** Inside the blocks: loops and the first row *)

Section LoopFacts.
Context {world : Type}.

Lemma for_each_app {X} (xs ys : list X) (step : X -> Body world unit) (w : world) :
  for_each (xs ++ ys) step w =
    match for_each xs step w with
    | (Returned _, w1) => for_each ys step w1
    | (Raised e, w1) => (Raised e, w1)
    end.
Proof.
  revert w. induction xs as [|x xs IH]; intros w; [done|].
  simpl. unfold b_bind. destruct (step x w) as [[[]|e] w1]; [apply IH|done].
Qed.
End LoopFacts.

Section BlockFacts.
Context {world value : Type} `{!Driver world} `{!Queries world value}.
Implicit Types (w : world) (conn : connection) (cur : cursor).


End BlockFacts.

(** ** Dict-mapped rows *)

Section DictFacts.
Context {V : Type}.
Implicit Types (k : string) (v : V) (d pairs : list (string * V)).

Lemma dict_get_set k v d : dict_get k (dict_set k v d) = Some v.
Proof.
  induction d as [|[k' v'] d IH]; csimpl.
  - by rewrite decide_True.
  - destruct (decide (k' = k)) as [->|Hne]; csimpl.
    + by rewrite decide_True.
    + by rewrite decide_False.
Qed.

Lemma dict_get_set_ne k k' v d :
  k <> k' -> dict_get k (dict_set k' v d) = dict_get k d.
Proof.
  intros Hne. induction d as [|[k0 v0] d IH]; csimpl.
  - by rewrite decide_False.
  - destruct (decide (k0 = k')) as [->|Hne0]; csimpl.
    + by rewrite !decide_False.
    + destruct (decide (k0 = k)); [done|apply IH].
Qed.

Lemma dict_keys_set k v d :
  dict_keys (dict_set k v d)
  = if decide (k ∈ dict_keys d) then dict_keys d else dict_keys d ++ [k].
Proof.
  unfold dict_keys. induction d as [|[k' v'] d IH]; csimpl; [done|].
  destruct (decide (k' = k)) as [->|Hne]; csimpl.
  - destruct (decide (k ∈ k :: d.*1)) as [Hin|Hnin]; [done|].
    exfalso. apply Hnin, list_elem_of_here.
  - rewrite IH.
    destruct (decide (k ∈ d.*1)) as [Hin|Hnin];
      destruct (decide (k ∈ k' :: d.*1)) as [Hin'|Hnin']; try done.
    + exfalso. by apply Hnin', list_elem_of_further.
    + exfalso. apply elem_of_cons in Hin' as [->|Hin']; done.
Qed.

Lemma dict_get_None k d : dict_get k d = None <-> k ∉ dict_keys d.
Proof.
  unfold dict_keys. induction d as [|[k' v'] d IH]; csimpl.
  - split; [intros _; apply not_elem_of_nil|done].
  - destruct (decide (k' = k)) as [->|Hne].
    + split; [done|]. intros Hnin. exfalso. apply Hnin, list_elem_of_here.
    + rewrite IH, not_elem_of_cons. split; [intros ?; split; congruence|by intros [_ ?]].
Qed.

Lemma fold_get_absent k pairs d :
  k ∉ pairs.*1 ->
  dict_get k (fold_left (fun d kv => dict_set kv.1 kv.2 d) pairs d) = dict_get k d.
Proof.
  revert d. induction pairs as [|[k' v'] pairs IH]; intros d Hnin; [done|].
  csimpl in *. apply not_elem_of_cons in Hnin as [Hne Hnin].
  rewrite IH by done. by apply dict_get_set_ne.
Qed.

Lemma fold_get_last k v pairs1 pairs2 d :
  k ∉ pairs2.*1 ->
  dict_get k (fold_left (fun d kv => dict_set kv.1 kv.2 d)
                (pairs1 ++ (k, v) :: pairs2) d) = Some v.
Proof.
  intros Hnin. rewrite fold_left_app. csimpl.
  rewrite fold_get_absent by done. apply dict_get_set.
Qed.

Lemma fold_keys_elem k pairs d :
  k ∈ dict_keys (fold_left (fun d kv => dict_set kv.1 kv.2 d) pairs d)
  <-> k ∈ dict_keys d \/ k ∈ pairs.*1.
Proof.
  revert d. induction pairs as [|[k' v'] pairs IH]; intros d; csimpl.
  - rewrite elem_of_nil. tauto.
  - rewrite IH, dict_keys_set, elem_of_cons.
    destruct (decide (k' ∈ dict_keys d)) as [Hin|Hnin].
    + intuition (subst; auto).
    + rewrite elem_of_app, list_elem_of_singleton. tauto.
Qed.

Lemma fold_keys_NoDup pairs d :
  NoDup (dict_keys d) ->
  NoDup (dict_keys (fold_left (fun d kv => dict_set kv.1 kv.2 d) pairs d)).
Proof.
  revert d. induction pairs as [|[k' v'] pairs IH]; intros d Hd; [done|].
  csimpl. apply IH. rewrite dict_keys_set.
  destruct (decide (k' ∈ dict_keys d)) as [Hin|Hnin]; [done|].
  apply NoDup_app. split; [done|]. split; [|apply NoDup_singleton].
  intros x Hx Hx'. apply list_elem_of_singleton in Hx' as ->. done.
Qed.

Lemma fold_keys_in_order pairs d :
  NoDup (dict_keys d ++ pairs.*1) ->
  dict_keys (fold_left (fun d kv => dict_set kv.1 kv.2 d) pairs d)
  = dict_keys d ++ pairs.*1.
Proof.
  revert d. induction pairs as [|[k' v'] pairs IH]; intros d Hd; csimpl.
  - by rewrite app_nil_r.
  - csimpl in Hd.
    assert (Hnin : k' ∉ dict_keys d).
    { apply NoDup_app in Hd as (_ & Hd & _). intros Hin. apply (Hd k' Hin).
      apply list_elem_of_here. }
    assert (Hkeys : dict_keys (dict_set k' v' d) = dict_keys d ++ [k'])
      by (rewrite dict_keys_set; by rewrite decide_False).
    rewrite IH; rewrite Hkeys, <- app_assoc; done.
Qed.

Lemma fst_zip_take (names : list string) (row : list V) :
  (zip names row).*1 = take (length row) names.
Proof.
  revert row. induction names as [|k names IH]; intros [|v row]; csimpl; try done.
  by rewrite IH.
Qed.

(** [dict(zip(names, row))[k]] is the cell under the last [k] among the
    names that have a cell. *)
Lemma dict_zip_get_last (names : list string) (row : list V) j k v :
  names !! j = Some k ->
  row !! j = Some v ->
  (forall j', j < j' -> j' < length row -> names !! j' <> Some k) ->
  dict_get k (dict (zip names row)) = Some v.
Proof.
  intros Hname Hcell Hlast.
  assert (Hpair : zip names row !! j = Some (k, v)).
  { rewrite lookup_zip_with, Hname. csimpl. by rewrite Hcell. }
  unfold dict. rewrite <- (take_drop_middle _ _ _ Hpair).
  apply fold_get_last. intros Hin.
  apply list_elem_of_lookup in Hin as (i & Hi).
  rewrite list_lookup_fmap, lookup_drop in Hi.
  destruct (zip names row !! (S j + i)) as [[k' v']|] eqn:Hzip; [|done].
  csimpl in Hi. injection Hi as ->.
  apply lookup_zip_with_Some in Hzip as (k' & v'' & [= -> ->] & Hname' & Hcell').
  apply (Hlast (S j + i)); [lia| |done].
  by apply lookup_lt_Some in Hcell'.
Qed.
End DictFacts.

Section ShapingFacts.
Context {column value : Type} (name : column -> string).
Implicit Types (result_meta : list column) (rows : list (list value)).
Implicit Types (row : list value) (col : column) (v : value).

(** X11.  With distinct column names, the dict made of a row gives back,
    under the name of a column, the cell of the row in that column:
    [results[i][result_meta[j].name] == rows[i][j]]. *)
Theorem dict_mapped_row_gives_cell_by_column_name result_meta rows i row j col v :
  NoDup (column_names name result_meta) ->
  rows !! i = Some row ->
  result_meta !! j = Some col ->
  row !! j = Some v ->
  exists d, rows_as_dicts name result_meta rows !! i = Some d
            /\ dict_get (name col) d = Some v.
Proof.
  intros Hdistinct Hrow Hcol Hcell.
  assert (Hname : column_names name result_meta !! j = Some (name col))
    by (unfold column_names; by rewrite list_lookup_fmap, Hcol).
  exists (dict (zip (column_names name result_meta) row)). split.
  - unfold rows_as_dicts. by rewrite list_lookup_fmap, Hrow.
  - apply (dict_zip_get_last _ _ j); [done|done|].
    intros j' Hlt _ Hname'.
    pose proof (NoDup_lookup _ _ _ _ Hdistinct Hname Hname'). lia.
Qed.

(** X12.  When several columns have the same name, the dict keeps one entry
    for that name, and its value is the cell of the last of these columns
    that the row reaches: the cells of the columns before it are not in the
    dict. *)
Theorem repeated_column_name_keeps_last_cell result_meta rows i row j col v :
  rows !! i = Some row ->
  result_meta !! j = Some col ->
  row !! j = Some v ->
  (forall j' col', j < j' -> j' < length row ->
                   result_meta !! j' = Some col' -> name col' <> name col) ->
  exists d, rows_as_dicts name result_meta rows !! i = Some d
            /\ dict_get (name col) d = Some v
            /\ NoDup (dict_keys d).
Proof.
  intros Hrow Hcol Hcell Hlast.
  exists (dict (zip (column_names name result_meta) row)). split; [|split].
  - unfold rows_as_dicts. by rewrite list_lookup_fmap, Hrow.
  - apply (dict_zip_get_last _ _ j); [|done|].
    + unfold column_names. by rewrite list_lookup_fmap, Hcol.
    + intros j' Hlt Hlen. unfold column_names. rewrite list_lookup_fmap.
      destruct (result_meta !! j') as [col'|] eqn:Hcol'; [|done].
      simpl. intros [= Heq]. by apply (Hlast j' col').
  - apply fold_keys_NoDup, NoDup_nil_2.
Qed.

(** X13.  The keys of the dict made of a row are the names of the columns
    the row reaches, each once: [zip] stops at the shorter of the
    description and the row, so a column beyond the end of a short row has
    no entry, and neither has a name that is not a column. *)
Theorem dict_mapped_row_has_the_paired_column_names result_meta rows i row :
  rows !! i = Some row ->
  exists d, rows_as_dicts name result_meta rows !! i = Some d
    /\ NoDup (dict_keys d)
    /\ (forall k, k ∈ dict_keys d
                  <-> k ∈ take (length row) (column_names name result_meta))
    /\ (forall k, dict_get k d = None
                  <-> k ∉ take (length row) (column_names name result_meta)).
Proof.
  intros Hrow.
  exists (dict (zip (column_names name result_meta) row)).
  assert (Hkeys : forall k,
             k ∈ dict_keys (dict (zip (column_names name result_meta) row))
             <-> k ∈ take (length row) (column_names name result_meta)).
  { intros k. unfold dict. rewrite fold_keys_elem, fst_zip_take.
    unfold dict_keys. simpl. rewrite elem_of_nil. tauto. }
  split; [|split; [|split]].
  - unfold rows_as_dicts. by rewrite list_lookup_fmap, Hrow.
  - apply fold_keys_NoDup, NoDup_nil_2.
  - done.
  - intros k. by rewrite dict_get_None, Hkeys.
Qed.

(** X14.  With distinct column names and rows that are not shorter than the
    description, there is one dict per row, in the order of the rows, and
    the keys of each dict are the column names in the order of the
    columns. *)
Theorem dict_mapped_rows_keep_column_order result_meta rows :
  NoDup (column_names name result_meta) ->
  Forall (fun row => length result_meta <= length row) rows ->
  length (rows_as_dicts name result_meta rows) = length rows
  /\ Forall (fun d => dict_keys d = column_names name result_meta)
       (rows_as_dicts name result_meta rows).
Proof.
  intros Hdistinct Hlong. split.
  - unfold rows_as_dicts. by rewrite length_fmap.
  - unfold rows_as_dicts. rewrite Forall_fmap.
    eapply Forall_impl; [exact Hlong|]. intros row Hlen. simpl.
    assert (Hfst : (zip (column_names name result_meta) row).*1
                   = column_names name result_meta).
    { rewrite fst_zip_take. apply take_ge. unfold column_names.
      by rewrite length_fmap. }
    unfold dict. rewrite fold_keys_in_order; simpl; by rewrite Hfst.
Qed.
End ShapingFacts.

(** ** The line of column names *)

Lemma append_nil (s : string) : "" +:+ s = s.
Proof. reflexivity. Qed.

Lemma append_cons (c : Ascii.ascii) (s t : string) :
  String c s +:+ t = String c (s +:+ t).
Proof. reflexivity. Qed.

Lemma has_comma_app (s1 s2 : string) :
  has_comma (s1 +:+ s2) = has_comma s1 || has_comma s2.
Proof.
  induction s1 as [|c s1 IH]; [done|].
  rewrite append_cons. simpl. by rewrite IH, orb_assoc.
Qed.

(** A piece without a comma ends at the first comma. *)
Lemma comma_splits_once (s1 s2 r1 r2 : string) :
  has_comma s1 = false ->
  has_comma s2 = false ->
  s1 +:+ "," +:+ r1 = s2 +:+ "," +:+ r2 ->
  s1 = s2 /\ r1 = r2.
Proof.
  revert s2. induction s1 as [|c1 s1 IH]; intros [|c2 s2] Hfree1 Hfree2 Heq;
    rewrite ?append_nil, ?append_cons, ?append_nil in Heq; simpl in Hfree1, Hfree2.
  - by injection Heq as ->.
  - injection Heq as <- _. discriminate.
  - injection Heq as -> _. discriminate.
  - injection Heq as -> Heq.
    apply orb_false_iff in Hfree1 as [_ Hfree1].
    apply orb_false_iff in Hfree2 as [_ Hfree2].
    destruct (IH s2 Hfree1 Hfree2) as [-> ->]; [|done].
    by rewrite ?append_cons, ?append_nil.
Qed.

Lemma join_comma_inj (names1 names2 : list string) :
  names1 <> [] ->
  names2 <> [] ->
  Forall (fun s => has_comma s = false) names1 ->
  Forall (fun s => has_comma s = false) names2 ->
  join "," names1 = join "," names2 ->
  names1 = names2.
Proof.
  revert names2.
  induction names1 as [|s1 rest1 IH]; intros [|s2 rest2]; try done.
  intros _ _ Hfree1 Hfree2.
  apply Forall_cons in Hfree1 as [Hs1 Hrest1].
  apply Forall_cons in Hfree2 as [Hs2 Hrest2].
  destruct rest1 as [|s1' rest1], rest2 as [|s2' rest2].
  - simpl. by intros ->.
  - intros Heq. exfalso.
    change (s1 = s2 +:+ "," +:+ join "," (s2' :: rest2)) in Heq.
    rewrite Heq, !has_comma_app in Hs1.
    change (has_comma ",") with true in Hs1.
    by rewrite orb_true_r in Hs1.
  - intros Heq. exfalso.
    change (s1 +:+ "," +:+ join "," (s1' :: rest1) = s2) in Heq.
    rewrite <- Heq, !has_comma_app in Hs2.
    change (has_comma ",") with true in Hs2.
    by rewrite orb_true_r in Hs2.
  - intros Heq.
    change (s1 +:+ "," +:+ join "," (s1' :: rest1)
            = s2 +:+ "," +:+ join "," (s2' :: rest2)) in Heq.
    apply comma_splits_once in Heq as [-> Heq]; [|done|done].
    f_equal. by apply IH.
Qed.

Section HeaderLine.
Context {column : Type} (name : column -> string).

(** X15.  The line of column names tells the names apart as long as no
    name has a comma in it: two descriptions, neither of them empty, that
    print the same line have the same column names, in the same order. *)
Theorem header_line_determines_column_names
    (result_metadata_list other : list column) :
  result_metadata_list <> [] ->
  other <> [] ->
  Forall (fun col => has_comma (name col) = false) result_metadata_list ->
  Forall (fun col => has_comma (name col) = false) other ->
  header_line name result_metadata_list = header_line name other ->
  column_names name result_metadata_list = column_names name other.
Proof.
  intros Hne1 Hne2 Hfree1 Hfree2. unfold header_line, column_names.
  apply join_comma_inj.
  - by destruct result_metadata_list.
  - by destruct other.
  - by rewrite Forall_fmap.
  - by rewrite Forall_fmap.
Qed.
End HeaderLine.

(** ** Runs of the blocks on the scripted service *)



(** Two columns, one row: the cell under the name of the second column. *)
Lemma dict_mapped_row_gives_cell_by_column_name_witness :
  exists d, rows_as_dicts id ["ROLE"; "N"] [[1%Z; 2%Z]] !! 0 = Some d
            /\ dict_get "N" d = Some 2%Z.
Proof.
  apply (dict_mapped_row_gives_cell_by_column_name
           id ["ROLE"; "N"] [[1%Z; 2%Z]] 0 [1%Z; 2%Z] 1 "N" 2%Z);
    [compute_done|reflexivity..].
Defined.

(** Two columns of the same name: the cell of the second one. *)
Lemma repeated_column_name_keeps_last_cell_witness :
  exists d, rows_as_dicts id ["ID"; "ID"] [[1%Z; 2%Z]] !! 0 = Some d
            /\ dict_get "ID" d = Some 2%Z
            /\ NoDup (dict_keys d).
Proof.
  apply (repeated_column_name_keeps_last_cell
           id ["ID"; "ID"] [[1%Z; 2%Z]] 0 [1%Z; 2%Z] 1 "ID" 2%Z);
    [reflexivity..|].
  intros j' col' Hlt Hlen. simpl in Hlen. lia.
Defined.

(** Three columns and a row of two cells. *)
Lemma dict_mapped_row_has_the_paired_column_names_witness :
  exists d, rows_as_dicts id ["A"; "B"; "C"] [[1%Z; 2%Z]] !! 0 = Some d
    /\ NoDup (dict_keys d)
    /\ (forall k, k ∈ dict_keys d <-> k ∈ ["A"; "B"])
    /\ (forall k, dict_get k d = None <-> k ∉ ["A"; "B"]).
Proof.
  apply (dict_mapped_row_has_the_paired_column_names
           id ["A"; "B"; "C"] [[1%Z; 2%Z]] 0 [1%Z; 2%Z]).
  reflexivity.
Defined.

(** Two columns, a row of two cells and a row of three. *)
Lemma dict_mapped_rows_keep_column_order_witness :
  length (rows_as_dicts id ["A"; "B"] [[1%Z; 2%Z]; [3%Z; 4%Z; 5%Z]]) = 2
  /\ Forall (fun d => dict_keys d = ["A"; "B"])
       (rows_as_dicts id ["A"; "B"] [[1%Z; 2%Z]; [3%Z; 4%Z; 5%Z]]).
Proof.
  apply (dict_mapped_rows_keep_column_order
           id ["A"; "B"] [[1%Z; 2%Z]; [3%Z; 4%Z; 5%Z]]).
  - compute_done.
  - repeat constructor; simpl; lia.
Defined.

(** Two descriptions with the same two names. *)
Lemma header_line_determines_column_names_witness :
  header_line id ["ROLE"; "N"] = "ROLE,N"
  /\ column_names id ["ROLE"; "N"] = column_names id ["ROLE"; "N"].
Proof.
  split; [reflexivity|].
  apply (header_line_determines_column_names id ["ROLE"; "N"] ["ROLE"; "N"]);
    try done; by repeat constructor.
Defined.
